(** * PySyn: a shallow embedding of the additive synthesiser

    The development follows the Python sources module by module:

    - [Py]     the outcome of a Python call (a value or a raised exception)
               and the state-and-exception monad the modelled code runs in;
    - [Num]    the scalar arithmetic the NumPy code is written over, with two
               instances: [binary64] (IEEE-754 doubles, the arithmetic the
               program runs on) and [exact] (real numbers, the arithmetic
               the documented formulas are read in);
    - [Np]     the NumPy functions the sources call: [linspace], [sign],
               [fft.fft] and [fft.fftfreq];
    - [Globals], [Time], [Osc], [Track], [Mixer]   the package [pysyn].

    Every function of the package is written once, over the [Num.Scalar]
    interface, and read at either instance.  Statements that hold in any
    arithmetic are proved once for all instances; statements about sample
    values are proved over the reals, and the places where rounding makes
    doubles behave differently are shown by evaluation on doubles. *)

From Stdlib Require Import ZArith Reals Lra Lia.
From Stdlib Require Floats.
From stdpp Require Import base option list gmap strings pretty.

(* ===================================================================== *)
(** ** Python results *)
(* ===================================================================== *)

Module Py.

(** The exceptions the modelled code can raise, with their messages. *)
Inductive exn : Type :=
| NameError (msg : string)
| ValueError (msg : string)
| OverflowError (msg : string)
| ZeroDivisionError (msg : string)
| KeyError (key : string).

(** The outcome of a call: a returned value or a raised exception. *)
Inductive result (A : Type) : Type :=
| Ok (a : A)
| Raise (e : exn).
Arguments Ok {A} a.
Arguments Raise {A} e.

#[global] Instance result_ret : MRet result := fun A a => Ok a.
#[global] Instance result_bind : MBind result :=
  fun A B k r => match r with Ok a => k a | Raise e => Raise e end.

Definition is_ok {A} (r : result A) : bool :=
  match r with Ok _ => true | Raise _ => false end.

(** Code that reads and writes a state [S] (the module globals, or the
    attributes of [self]) and may raise.  A raise keeps the writes made
    before it, as in Python. *)
Definition M (S A : Type) : Type := S -> result A * S.

#[global] Instance M_ret {S} : MRet (M S) := fun A a s => (Ok a, s).
#[global] Instance M_bind {S} : MBind (M S) :=
  fun A B k m s =>
    match m s with
    | (Ok a, s') => k a s'
    | (Raise e, s') => (Raise e, s')
    end.

Definition raise {S A} (e : exn) : M S A := fun s => (Raise e, s).
Definition get {S} : M S S := fun s => (Ok s, s).
Definition put {S} (s : S) : M S unit := fun _ => (Ok tt, s).
Definition lift {S A} (r : result A) : M S A := fun s => (r, s).

(** What a call evaluates to where the sources produce either [None] or an
    array. *)
Inductive value (F : Type) : Type :=
| NoneV
| ArrayV (a : list F).
Arguments NoneV {F}.
Arguments ArrayV {F} a.

End Py.

(* ===================================================================== *)
(** ** Scalars *)
(* ===================================================================== *)

Module Num.

(** The operations of Python's [float] and NumPy's [float64] that the
    sources use. *)
Class Scalar (F : Type) : Type := {
  of_int : Z -> F;             (* float(n): an int operand made a float *)
  add : F -> F -> F;
  sub : F -> F -> F;
  mul : F -> F -> F;
  div : F -> F -> F;           (* NumPy's division, which does not raise *)
  eqb : F -> F -> bool;        (* x == y *)
  ltb : F -> F -> bool;        (* x < y *)
  to_int : F -> Py.result Z;   (* int(x): the integer part *)
  floor : F -> F;              (* np.floor *)
  pi : F                       (* np.pi *)
}.

(** The functions NumPy takes from the C mathematical library. *)
Class Trig (F : Type) : Type := {
  sin : F -> F;                (* np.sin *)
  cos : F -> F;                (* np.cos *)
  arcsin : F -> F              (* np.arcsin *)
}.

Declare Scope num_scope.
Delimit Scope num_scope with num.

Module Notations.
Infix "+" := add : num_scope.
Infix "-" := sub : num_scope.
Infix "*" := mul : num_scope.
Infix "/" := div : num_scope.
Infix "==" := eqb (at level 70, no associativity) : num_scope.
Infix "<?" := ltb : num_scope.
End Notations.
Import Notations.

(** The literal [0.5]. *)
Definition half {F} `{Scalar F} : F := (of_int 1 / of_int 2)%num.

(* ------------------------------------------------------------------- *)
(** *** IEEE-754 binary64 *)

Module B64.
Import Floats.

(** [float(n)]: the integer rounded to the nearest double, ties to even.
    (Python raises [OverflowError] from [2**1024] on, where this gives
    infinity; the sources convert the sampling rate, sample indices and
    small literals only.) *)
Definition of_int (z : Z) : float :=
  SF2Prim (binary_normalize prec emax z 0 false).

(** [int(x)]: the integer part; NaN and the infinities raise. *)
Definition to_int (x : float) : Py.result Z :=
  match Prim2SF x with
  | S754_nan => Py.Raise (Py.ValueError "cannot convert float NaN to integer")
  | S754_infinity _ =>
      Py.Raise (Py.OverflowError "cannot convert float infinity to integer")
  | S754_zero _ => Py.Ok 0%Z
  | S754_finite s m e =>
      let a := if (0 <=? e)%Z then Z.shiftl (Zpos m) e
               else Z.shiftr (Zpos m) (- e) in
      Py.Ok (if s then (- a)%Z else a)
  end.

(** [np.floor]: the largest integral double not above [x]; zeros, NaN and
    the infinities are returned as they are. *)
Definition floor (x : float) : float :=
  match Prim2SF x with
  | S754_finite s m e =>
      if (0 <=? e)%Z then x
      else
        let q := Z.shiftr (Zpos m) (- e) in
        let exact := (Z.shiftl q (- e) =? Zpos m)%Z in
        if s then (if exact then of_int (- q) else of_int (- (q + 1)))
        else of_int q
  | _ => x
  end.

(** [np.pi], the double nearest to pi: 3.141592653589793. *)
Definition pi : float := 0x1.921fb54442d18p+1%float.

End B64.

#[global] Instance binary64 : Scalar PrimFloat.float := {|
  of_int := B64.of_int;
  add := PrimFloat.add;
  sub := PrimFloat.sub;
  mul := PrimFloat.mul;
  div := PrimFloat.div;
  eqb := PrimFloat.eqb;
  ltb := PrimFloat.ltb;
  to_int := B64.to_int;
  floor := B64.floor;
  pi := B64.pi
|}.

(* ------------------------------------------------------------------- *)
(** *** Exact real arithmetic *)

Module Exact.

Definition eqb (x y : R) : bool := if Req_dec_T x y then true else false.
Definition ltb (x y : R) : bool := if Rlt_dec x y then true else false.

(** The integer part: rounding toward zero. *)
Definition trunc (x : R) : Z := if Rle_dec 0 x then Zfloor x else Zceil x.

Definition to_int (x : R) : Py.result Z := Py.Ok (trunc x).
Definition floor (x : R) : R := IZR (Zfloor x).

End Exact.

#[global] Instance exact : Scalar R := {|
  of_int := IZR;
  add := Rplus;
  sub := Rminus;
  mul := Rmult;
  div := Rdiv;
  eqb := Exact.eqb;
  ltb := Exact.ltb;
  to_int := Exact.to_int;
  floor := Exact.floor;
  pi := PI
|}.

#[global] Instance exact_trig : Trig R := {|
  sin := Rtrigo_def.sin;
  cos := Rtrigo_def.cos;
  arcsin := Ratan.asin
|}.

End Num.

(* ===================================================================== *)
(** ** NumPy *)
(* ===================================================================== *)

Module Np.
Import Num.Notations.

(** The error of [linspace] on a negative count. *)
Definition negative_count (num : Z) : Py.exn :=
  Py.ValueError
    ("Number of samples, " +:+ pretty num +:+ ", must be non-negative.").

(** The error of [fft.fft] on an empty input. *)
Definition no_data_points : Py.exn :=
  Py.ValueError "Invalid number of FFT data points (0) specified.".

Section Generic.
Context {F : Type} `{Num.Scalar F}.
Local Open Scope num_scope.

(** [np.arange(0, n)] with a float dtype: [0., 1., ..., n-1.]. *)
Definition arange (n : Z) : list F := Num.of_int <$> seqZ 0 n.

(** [np.linspace(start, stop, num, endpoint)], after NumPy's
    [function_base.linspace]: a negative [num] raises; otherwise the
    integers [0 .. num-1] are multiplied by [step = (stop - start) / div]
    (divided by [div] and multiplied by [stop - start] when [step] is zero,
    NumPy's handling of denormals; multiplied by [stop - start] when [div]
    is not positive) and [start] is added; with [endpoint] and more than
    one sample the last sample is overwritten by [stop]. *)
Definition linspace (start stop : F) (num : Z) (endpoint : bool)
  : Py.result (list F) :=
  if (num <? 0)%Z then Py.Raise (negative_count num)
  else
    let div_ := if endpoint then (num - 1)%Z else num in
    let delta := stop - start in
    let y := arange num in
    let y :=
      if (0 <? div_)%Z then
        let step := delta / Num.of_int div_ in
        if step == Num.of_int 0 then
          (fun v => v / Num.of_int div_ * delta) <$> y
        else
          (fun v => v * step) <$> y
      else
        (fun v => v * delta) <$> y in
    let y := (fun v => v + start) <$> y in
    let y :=
      if endpoint && (1 <? num)%Z then <[pred (length y) := stop]> y else y in
    Py.Ok y.

(** [np.sign] on a float: [1], [-1] or [0] by comparison with zero, and the
    argument itself when no comparison holds (NaN). *)
Definition sign (x : F) : F :=
  if Num.of_int 0 <? x then Num.of_int 1
  else if x <? Num.of_int 0 then Num.of_int (-1)
  else if x == Num.of_int 0 then Num.of_int 0
  else x.

(** [np.fft.fftfreq(n, d)]: the bin labels [0, 1, ..., (n-1)//2] followed
    by [-(n//2), ..., -1], each times [1.0 / (n * d)].  The quotient is a
    division of Python floats, which raises on a zero divisor. *)
Definition fftfreq (n : Z) (d : F) : Py.result (list F) :=
  let nd := Num.of_int n * d in
  if nd == Num.of_int 0 then
    Py.Raise (Py.ZeroDivisionError "float division by zero")
  else
    let val := Num.of_int 1 / nd in
    let N := ((n - 1) `div` 2 + 1)%Z in
    let results := seqZ 0 N ++ seqZ (- (n `div` 2)) (n `div` 2) in
    Py.Ok ((fun k => Num.of_int k * val) <$> results).

Context `{Num.Trig F}.

(** The term [x * exp(-2 pi i j k / n)] of the discrete Fourier transform,
    as the pair of its real and imaginary parts. *)
Definition dft_term (n k : Z) (j : Z) (x : F) : F * F :=
  let theta := Num.of_int 2 * Num.pi * Num.of_int (j * k) / Num.of_int n in
  (x * Num.cos theta, Num.of_int 0 - x * Num.sin theta).

Definition cadd (a b : F * F) : F * F := (a.1 + b.1, a.2 + b.2).

(** Bin [k] of the transform of [a]. *)
Definition dft_bin (a : list F) (k : Z) : F * F :=
  foldr cadd (Num.of_int 0, Num.of_int 0)
    (imap (fun j x => dft_term (Z.of_nat (length a)) k (Z.of_nat j) x) a).

(** [np.fft.fft(a)] for a one-dimensional real array: an empty input raises
    (NumPy refuses fewer than one data point); otherwise the result has one
    complex bin per input sample.  The bins are given by the discrete
    Fourier sum; the order in which the fast transform adds the terms is
    not modelled. *)
Definition fft (a : list F) : Py.result (list (F * F)) :=
  let n := Z.of_nat (length a) in
  if (n <? 1)%Z then Py.Raise no_data_points
  else Py.Ok (dft_bin a <$> seqZ 0 n).

End Generic.
End Np.

(* ===================================================================== *)
(** ** The state of the package *)
(* ===================================================================== *)

(** [osc.WaveGenerator]: a callable taking the time array, the frequency
    and the phase, and returning an array. *)
Abbreviation WaveGenerator F := (list F -> F -> F -> list F) (only parsing).

Module Globals.

(** The state that outlives a call: the class attribute
    [Time._sampling_rate] and the dictionary [osc._oscs] from wave names to
    generators.  (A Python dictionary also remembers the order of insertion;
    only [print_oscillators], which is not modelled, reads it.) *)
Record t (F : Type) : Type := mk {
  _sampling_rate : Z;
  _oscs : gmap string (WaveGenerator F)
}.
Arguments mk {F} _ _.
Arguments _sampling_rate {F} _.
Arguments _oscs {F} _.

End Globals.

(* ===================================================================== *)
(** ** pysyn/time.py *)
(* ===================================================================== *)

Module Time.
Import Num.Notations.

Section Generic.
Context {F : Type} `{Num.Scalar F}.
Local Open Scope num_scope.

(** An instance of the class [Time]: its two slots. *)
Record t : Type := mk {
  duration : F;
  start : F
}.

Definition __init__ (duration start : F) : t := mk duration start.

(** [Time.get_array]:
    [np.linspace(start, start + duration, int(rate * duration),
    endpoint=False)]. *)
Definition get_array (self : t) : Py.M (Globals.t F) (list F) :=
  g ← Py.get;
  num ← Py.lift
    (Num.to_int (Num.of_int (Globals._sampling_rate g) * duration self));
  Py.lift (Np.linspace (start self) (start self + duration self) num false).

(** [Time.get_sampling_rate]. *)
Definition get_sampling_rate : Py.M (Globals.t F) Z :=
  g ← Py.get;
  mret (Globals._sampling_rate g).

End Generic.
Arguments t F : clear implicits.
End Time.

(* ===================================================================== *)
(** ** pysyn/osc.py *)
(* ===================================================================== *)

Module Osc.
Import Num.Notations.

(** The enumeration [Oscillators] and the value of each member. *)
Inductive Oscillators : Type := SIN | SQR | TRI | SAW.

Definition value (o : Oscillators) : string :=
  match o with
  | SIN => "Sine"
  | SQR => "Square"
  | TRI => "Triangle"
  | SAW => "Sawtooth"
  end.

Section Generators.
Context {F : Type} `{Num.Scalar F} `{Num.Trig F}.
Local Open Scope num_scope.

Definition _generate_sin (t : list F) (freq phase : F) : list F :=
  (fun ti => Num.sin (Num.of_int 2 * Num.pi * freq * ti + phase)) <$> t.

Definition _generate_sqr (t : list F) (freq phase : F) : list F :=
  (fun ti => Np.sign (Num.sin (Num.of_int 2 * Num.pi * freq * ti + phase)))
    <$> t.

Definition _generate_tri (t : list F) (freq phase : F) : list F :=
  (fun ti =>
     Num.of_int 2
     * Num.arcsin (Num.sin (Num.of_int 2 * Num.pi * freq * ti + phase))
     / Num.pi) <$> t.

Definition _generate_saw (t : list F) (freq phase : F) : list F :=
  let offset := phase / (Num.of_int 2 * Num.pi) in
  (fun ti =>
     Num.of_int 2
     * (freq * ti + offset - Num.floor (Num.half + freq * ti + offset)))
    <$> t.

(** The dictionary [_oscs] as the module is loaded: the four default
    oscillators. *)
Definition builtin_oscs : gmap string (WaveGenerator F) :=
  <["Sine" := _generate_sin]>
    (<["Square" := _generate_sqr]>
       (<["Triangle" := _generate_tri]>
          (<["Sawtooth" := _generate_saw]> ∅))).

(** The globals after [import pysyn]. *)
Definition init : Globals.t F := Globals.mk 44100 builtin_oscs.

(** [add_oscillator(name, wave_func)]. *)
Definition add_oscillator (name : string) (wave_func : WaveGenerator F)
  : Py.M (Globals.t F) unit :=
  g ← Py.get;
  match Globals._oscs g !! name with
  | Some _ =>
      Py.raise (Py.NameError ("Wave name '" +:+ name +:+ "' already exists!"))
  | None =>
      Py.put (Globals.mk (Globals._sampling_rate g)
                         (<[name := wave_func]> (Globals._oscs g)))
  end.

End Generators.

Module Oscillator.
Section Generic.
Context {F : Type} `{Num.Scalar F}.

(** An instance of the class [Oscillator]: its two slots. *)
Record t : Type := mk {
  _wave : string;
  _wave_func : WaveGenerator F
}.

(** [Oscillator.__init__(wave)]: raises when [_oscs.get(wave)] is [None];
    otherwise stores [_oscs[wave]] in the object. *)
Definition __init__ (wave : string) : Py.M (Globals.t F) t :=
  g ← Py.get;
  match Globals._oscs g !! wave with
  | None => Py.raise (Py.NameError ("Wave '" +:+ wave +:+ "' does not exist!"))
  | Some _ =>
      match Globals._oscs g !! wave with
      | None => Py.raise (Py.KeyError wave)
      | Some f => mret (mk wave f)
      end
  end.

(** [Oscillator.oscillate(t, freq, phase)]. *)
Definition oscillate (self : t) (t : Time.t F) (freq phase : F)
  : Py.M (Globals.t F) (list F) :=
  ts ← Time.get_array t;
  mret (_wave_func self ts freq phase).

(** [Oscillator.__str__] and [Oscillator.__repr__]. *)
Definition __str__ (self : t) : string :=
  "Oscillator(wave='" +:+ _wave self +:+ "')".

Definition __repr__ (self : t) : string := __str__ self.

End Generic.
Arguments t F : clear implicits.
End Oscillator.

Section Transform.
Context {F : Type} `{Num.Scalar F} `{Num.Trig F}.
Local Open Scope num_scope.

(** [fourier_transform(wave)]: the spectrum by [np.fft.fft], the bin labels
    by [np.fft.fftfreq(len(fft_arr), 1 / Time.get_sampling_rate())].  The
    quotient [1 / rate] divides two Python ints and raises on a zero rate. *)
Definition fourier_transform (wave : list F)
  : Py.M (Globals.t F) (list F * list (F * F)) :=
  fft_arr ← Py.lift (Np.fft wave);
  rate ← Time.get_sampling_rate;
  d ← (if (rate =? 0)%Z
       then Py.raise (Py.ZeroDivisionError "division by zero")
       else mret (Num.of_int 1 / Num.of_int rate));
  freq_arr ← Py.lift (Np.fftfreq (Z.of_nat (length fft_arr)) d);
  mret (freq_arr, fft_arr).

End Transform.
End Osc.

(* ===================================================================== *)
(** ** pysyn/track.py *)
(* ===================================================================== *)

Module Track.
Section Generic.
Context {F : Type}.

(** An instance of the class [Track]. *)
Record t : Type := mk {
  _osc : Osc.Oscillator.t F;
  _steps : list (string * string);
  _filters : list (list F -> list F)
}.

Definition __init__ (osc : Osc.Oscillator.t F) (steps : list (string * string))
  : t := mk osc steps [].

(** [Track.compile_]: the body of the method is its docstring followed by
    [...], so a call evaluates nothing and returns [None]. *)
Definition compile_ (self : t) : Py.result (Py.value F) := Py.Ok Py.NoneV.

End Generic.
Arguments t F : clear implicits.
End Track.

(* ===================================================================== *)
(** ** pysyn/mixer.py *)
(* ===================================================================== *)

Module Mixer.
Section Generic.
Context {F : Type} `{Num.Scalar F}.

(** An instance of the class [Mixer]. *)
Record t : Type := mk {
  _tracks : gmap string (Track.t F);
  _levels : gmap string F
}.

Definition __init__ : t := mk ∅ ∅.

(** [dict.setdefault(key, default)]: the stored value when the key is
    present; otherwise the default, which is stored.  Returns the value and
    the dictionary afterwards. *)
Definition setdefault {V} (key : string) (default : V) (d : gmap string V)
  : V * gmap string V :=
  match d !! key with
  | Some v => (v, d)
  | None => (default, <[key := default]> d)
  end.

(** [Mixer.add_track(osc, steps, name)]: one [setdefault] on [_tracks],
    then one on [_levels] with the level [1.]. *)
Definition add_track (osc : Osc.Oscillator.t F) (steps : list (string * string))
    (name : string) : Py.M t unit :=
  self ← Py.get;
  _ ← Py.put
    (mk (setdefault name (Track.__init__ osc steps) (_tracks self)).2
        (_levels self));
  self ← Py.get;
  Py.put (mk (_tracks self) (setdefault name (Num.of_int 1) (_levels self)).2).

(** [Mixer.compile_]: calls [compile_] on every track and drops the
    result. *)
Definition compile_ : Py.M t unit :=
  self ← Py.get;
  _ ← Py.lift (mapM (fun item => Track.compile_ item.2)
                    (map_to_list (_tracks self)));
  mret tt.

(** [Mixer.play]: the body is [...]. *)
Definition play : Py.M t unit := mret tt.

(** [Mixer.compile_play]. *)
Definition compile_play : Py.M t unit :=
  _ ← compile_;
  play.

(** [Mixer.__str__] and [Mixer.__repr__]. *)
Definition __str__ (self : t) : string := "Mixer()".

Definition __repr__ (self : t) : string := __str__ self.

End Generic.
Arguments t F : clear implicits.
End Mixer.

(* ===================================================================== *)
(** ** Auxiliary definitions used in the statements *)
(* ===================================================================== *)

(** The scaling [Np.linspace] applies to the integer [v] when [endpoint] is
    off: the three branches of its body, for one sample. *)
Definition linspace_scale {F : Type} `{Num.Scalar F}
    (start stop : F) (num : Z) (v : F) : F :=
  let delta := Num.sub stop start in
  let step := Num.div delta (Num.of_int num) in
  if (0 <? num)%Z then
    if Num.eqb step (Num.of_int 0)
    then Num.mul (Num.div v (Num.of_int num)) delta
    else Num.mul v step
  else Num.mul v delta.

(** The globals on doubles at the default rate.  (The default oscillators
    need the sine of the C library, which is not modelled on doubles; time
    sampling does not read the registry.) *)
Definition binary64_globals : Globals.t PrimFloat.float := Globals.mk 44100 ∅.

(** The calls a client can make on a mixer. *)
Inductive mixer_call (F : Type) : Type :=
| CallAddTrack (osc : Osc.Oscillator.t F) (steps : list (string * string))
    (name : string)
| CallCompile
| CallPlay
| CallCompilePlay.
Arguments CallAddTrack {F} osc steps name.
Arguments CallCompile {F}.
Arguments CallPlay {F}.
Arguments CallCompilePlay {F}.

Definition mixer_do {F : Type} `{Num.Scalar F} (c : mixer_call F)
  : Py.M (Mixer.t F) unit :=
  match c with
  | CallAddTrack osc steps name => Mixer.add_track osc steps name
  | CallCompile => Mixer.compile_
  | CallPlay => Mixer.play
  | CallCompilePlay => Mixer.compile_play
  end.

(** The mixer after a sequence of calls, whatever each call returned. *)
Fixpoint mixer_run {F : Type} `{Num.Scalar F} (cs : list (mixer_call F))
    (m : Mixer.t F) : Mixer.t F :=
  match cs with
  | [] => m
  | c :: cs => mixer_run cs (mixer_do c m).2
  end.

(** The invariant of the mixer's data model. *)
Definition keys_agree {F : Type} (m : Mixer.t F) : Prop :=
  dom (Mixer._tracks m) = dom (Mixer._levels m).

(** The track of the first [add_track] call under [name] in a sequence of
    calls, if there is one. *)
Fixpoint first_track {F : Type} (name : string) (calls : list (mixer_call F))
  : option (Track.t F) :=
  match calls with
  | [] => None
  | CallAddTrack osc steps n :: calls =>
      if decide (n = name) then Some (Track.__init__ osc steps)
      else first_track name calls
  | _ :: calls => first_track name calls
  end.

(** The [add_track] calls of a sequence, in order. *)
Fixpoint add_track_calls {F : Type} (calls : list (mixer_call F))
  : list (mixer_call F) :=
  match calls with
  | [] => []
  | CallAddTrack osc steps name :: calls =>
      CallAddTrack osc steps name :: add_track_calls calls
  | _ :: calls => add_track_calls calls
  end.

(** The globals after a sequence of [add_oscillator(name, wave_func)] calls,
    whatever each call returned. *)
Fixpoint registry_run {F : Type}
    (calls : list (string * WaveGenerator F)) (g : Globals.t F)
  : Globals.t F :=
  match calls with
  | [] => g
  | (name, wave_func) :: calls =>
      registry_run calls (Osc.add_oscillator name wave_func g).2
  end.

(** The generator of the first entry under [name] in a sequence of
    registrations, if there is one. *)
Fixpoint first_registered {F : Type} (name : string)
    (calls : list (string * WaveGenerator F)) : option (WaveGenerator F) :=
  match calls with
  | [] => None
  | (n, wave_func) :: calls =>
      if decide (n = name) then Some wave_func
      else first_registered name calls
  end.

(** The default generator behind each member of [Oscillators]. *)
Definition builtin_generator {F : Type} `{Num.Scalar F} `{Num.Trig F}
    (o : Osc.Oscillators) : WaveGenerator F :=
  match o with
  | Osc.SIN => Osc._generate_sin
  | Osc.SQR => Osc._generate_sqr
  | Osc.TRI => Osc._generate_tri
  | Osc.SAW => Osc._generate_saw
  end.


(* ===================================================================== *)
(** ** Properties of [Np] and [Time] over any scalar type *)
(* ===================================================================== *)

Section ScalarFacts.
Context {F : Type} `{Num.Scalar F}.

Lemma arange_length (n : Z) : length (Np.arange (F:=F) n) = Z.to_nat n.
Proof. unfold Np.arange. by rewrite length_fmap, length_seqZ. Qed.


(** With [endpoint=False] and a count that is not negative, [linspace]
    returns one sample per integer below the count. *)
Lemma linspace_open (start stop : F) (num : Z) :
  (0 <= num)%Z ->
  Np.linspace start stop num false
  = Py.Ok ((fun v => Num.add (linspace_scale start stop num v) start)
             <$> Np.arange num).
Proof.
  intros Hn. unfold Np.linspace, linspace_scale.
  destruct (Z.ltb_spec num 0) as [?|_]; [lia|].
  simpl. f_equal.
  destruct (0 <? num)%Z.
  - destruct (Num.eqb _ _); by rewrite <- list_fmap_compose.
  - by rewrite <- list_fmap_compose.
Qed.

Lemma linspace_negative (start stop : F) (num : Z) (endpoint : bool) :
  (num < 0)%Z ->
  Np.linspace start stop num endpoint = Py.Raise (Np.negative_count num).
Proof.
  intros Hn. unfold Np.linspace.
  destruct (Z.ltb_spec num 0) as [_|?]; [done|lia].
Qed.

Lemma get_array_unfold (self : Time.t F) (g : Globals.t F) :
  Time.get_array self g
  = (match Num.to_int (Num.mul (Num.of_int (Globals._sampling_rate g))
                               (Time.duration self)) with
     | Py.Ok num =>
         Np.linspace (Time.start self)
           (Num.add (Time.start self) (Time.duration self)) num false
     | Py.Raise e => Py.Raise e
     end, g).
Proof.
  unfold Time.get_array, mbind, Py.M_bind, Py.get, Py.lift.
  by destruct (Num.to_int _).
Qed.

(** In any arithmetic the outcome of [get_array] is decided by the sample
    count [int(rate * duration)]: a negative count raises, any other count
    [n] gives exactly [n] samples; the globals are left as they were. *)
Lemma get_array_count (self : Time.t F) (g : Globals.t F) (n : Z) :
  Num.to_int (Num.mul (Num.of_int (Globals._sampling_rate g))
                      (Time.duration self)) = Py.Ok n ->
  ((n < 0)%Z ->
     Time.get_array self g = (Py.Raise (Np.negative_count n), g))
  /\ ((0 <= n)%Z ->
     exists l, Time.get_array self g = (Py.Ok l, g) /\ length l = Z.to_nat n).
Proof.
  intros Hn. rewrite get_array_unfold, Hn. split; intros Hsign.
  - by rewrite linspace_negative.
  - rewrite linspace_open by done. eexists. split; [done|].
    by rewrite length_fmap, arange_length.
Qed.

End ScalarFacts.

(* ===================================================================== *)
(** ** Time sampling *)
(* ===================================================================== *)

Section ExactTime.
Local Open Scope R_scope.










End ExactTime.

(* ===================================================================== *)
(** ** The same functions on IEEE-754 doubles *)
(* ===================================================================== *)

Module Binary64.
Import Floats.
Local Open Scope float_scope.



(** A zero duration gives the empty array, and minus one second raises. *)
Lemma get_array_binary64_zero_and_minus_one :
  Time.get_array (Time.mk 0 0) binary64_globals = (Py.Ok [], binary64_globals)
  /\ Time.get_array (Time.mk (- 1) 0) binary64_globals
     = (Py.Raise (Np.negative_count (-44100)), binary64_globals).
Proof. repeat split; vm_compute; reflexivity. Qed.


(** At moderate arguments the sawtooth is what the formula says. *)
Lemma generate_saw_binary64_samples :
  Osc._generate_saw [0.25; 0.5; 0.75; 1.4375; -0.75] 1 0
  = [0.5; -1; -0.5; 0.875; 0.5].
Proof. vm_compute; reflexivity. Qed.

End Binary64.

(* ===================================================================== *)
(** ** Wave generators *)
(* ===================================================================== *)

Section GeneratorFacts.
Context {F : Type} `{Num.Scalar F} `{Num.Trig F}.
Import Num.Notations.
Local Open Scope num_scope.

(** In any arithmetic each generator works sample by sample: sample [i] of
    the output is the expression of the source at [t[i]]. *)
Lemma generators_pointwise (t : list F) (freq phase : F) (i : nat) (ti : F) :
  t !! i = Some ti ->
  let x := Num.of_int 2 * Num.pi * freq * ti + phase in
  let offset := phase / (Num.of_int 2 * Num.pi) in
  Osc._generate_sin t freq phase !! i = Some (Num.sin x)
  /\ Osc._generate_sqr t freq phase !! i = Some (Np.sign (Num.sin x))
  /\ Osc._generate_tri t freq phase !! i
     = Some (Num.of_int 2 * Num.arcsin (Num.sin x) / Num.pi)
  /\ Osc._generate_saw t freq phase !! i
     = Some (Num.of_int 2
             * (freq * ti + offset
                - Num.floor (Num.half + freq * ti + offset))).
Proof.
  intros Hti x offset.
  unfold Osc._generate_sin, Osc._generate_sqr, Osc._generate_tri,
    Osc._generate_saw.
  by rewrite !list_lookup_fmap, Hti.
Qed.

(** Every generator works sample by sample: the output has the length of
    the time array. *)
Lemma generators_length (t : list F) (freq phase : F) :
  length (Osc._generate_sin t freq phase) = length t
  /\ length (Osc._generate_sqr t freq phase) = length t
  /\ length (Osc._generate_tri t freq phase) = length t
  /\ length (Osc._generate_saw t freq phase) = length t.
Proof.
  unfold Osc._generate_sin, Osc._generate_sqr, Osc._generate_tri,
    Osc._generate_saw.
  by rewrite !length_fmap.
Qed.

End GeneratorFacts.

Section ExactGenerators.
Local Open Scope R_scope.

(** [np.sign] on a real number. *)
Lemma sign_exact (s : R) :
  (0 < s -> Np.sign s = 1) /\ (s = 0 -> Np.sign s = 0)
  /\ (s < 0 -> Np.sign s = -1).
Proof.
  unfold Np.sign. simpl. unfold Num.Exact.ltb, Num.Exact.eqb.
  destruct (Rlt_dec 0 s), (Rlt_dec s 0), (Req_dec_T s 0);
    repeat split; intros; try lra; done.
Qed.





End ExactGenerators.

(* ===================================================================== *)
(** ** The registry and the oscillators *)
(* ===================================================================== *)

Section RegistryFacts.
Context {F : Type} `{Num.Scalar F}.

Lemma add_oscillator_present (g : Globals.t F) (name : string)
    (wave_func old : WaveGenerator F) :
  Globals._oscs g !! name = Some old ->
  Osc.add_oscillator name wave_func g
  = (Py.Raise (Py.NameError ("Wave name '" +:+ name +:+ "' already exists!")),
     g).
Proof.
  intros Hold.
  unfold Osc.add_oscillator, mbind, Py.M_bind, Py.get, Py.raise.
  by rewrite Hold.
Qed.

Lemma add_oscillator_fresh (g : Globals.t F) (name : string)
    (wave_func : WaveGenerator F) :
  Globals._oscs g !! name = None ->
  Osc.add_oscillator name wave_func g
  = (Py.Ok (),
     Globals.mk (Globals._sampling_rate g)
                (<[name := wave_func]> (Globals._oscs g))).
Proof.
  intros Hnone.
  unfold Osc.add_oscillator, mbind, Py.M_bind, Py.get, Py.put.
  by rewrite Hnone.
Qed.

(** C6.  Registering under a name the registry already holds raises (the
    [NameError] of [add_oscillator], the spec's DuplicateWaveName) and
    leaves the globals, hence the whole mapping, as they were.  Registering
    under a fresh name returns, binds exactly that name to the generator,
    and changes no other entry nor the sampling rate. *)
Theorem add_oscillator_spec (g : Globals.t F) (name : string)
    (wave_func : WaveGenerator F) :
  (is_Some (Globals._oscs g !! name) ->
     Osc.add_oscillator name wave_func g
     = (Py.Raise
          (Py.NameError ("Wave name '" +:+ name +:+ "' already exists!")), g))
  /\ (Globals._oscs g !! name = None ->
      exists g' : Globals.t F,
        Osc.add_oscillator name wave_func g = (Py.Ok (), g')
        /\ Globals._oscs g' = <[name := wave_func]> (Globals._oscs g)
        /\ Globals._oscs g' !! name = Some wave_func
        /\ (forall other : string, other <> name ->
              Globals._oscs g' !! other = Globals._oscs g !! other)
        /\ Globals._sampling_rate g' = Globals._sampling_rate g).
Proof.
  split.
  - intros [old Hold]. by eapply add_oscillator_present.
  - intros Hnone. eexists. split; [by apply add_oscillator_fresh|].
    simpl. split; [done|]. split; [by rewrite lookup_insert_eq|].
    split; [|done]. intros other Hne. by rewrite lookup_insert_ne.
Qed.

Lemma oscillate_unfold (o : Osc.Oscillator.t F) (t : Time.t F)
    (freq phase : F) (g : Globals.t F) :
  Osc.Oscillator.oscillate o t freq phase g
  = (match (Time.get_array t g).1 with
     | Py.Ok ts => Py.Ok (Osc.Oscillator._wave_func o ts freq phase)
     | Py.Raise e => Py.Raise e
     end, g).
Proof.
  unfold Osc.Oscillator.oscillate, mbind, Py.M_bind.
  rewrite get_array_unfold. simpl.
  destruct (Num.to_int _) as [num|e]; [|done].
  by destruct (Np.linspace _ _ _ _).
Qed.

(** [oscillate] reads the globals for the sampling rate only. *)
Lemma oscillate_registry_irrelevant (o : Osc.Oscillator.t F) (t : Time.t F)
    (freq phase : F) (g g' : Globals.t F) :
  Globals._sampling_rate g' = Globals._sampling_rate g ->
  (Osc.Oscillator.oscillate o t freq phase g').1
  = (Osc.Oscillator.oscillate o t freq phase g).1.
Proof.
  intros Hrate. rewrite !oscillate_unfold, !get_array_unfold. simpl.
  by rewrite Hrate.
Qed.

(** C7.  Constructing an oscillator raises (the [NameError] of
    [Oscillator.__init__], the spec's UnknownWaveName) exactly when the name
    is not in the registry at that moment, and then changes nothing.
    Otherwise the object holds the generator the registry had for the name,
    and what [oscillate] returns for it is the same under any later registry:
    after any [add_oscillator] call, and more generally in any globals with
    the same sampling rate. *)
Theorem oscillator_init_spec (g : Globals.t F) (wave : string) :
  (Py.is_ok (Osc.Oscillator.__init__ wave g).1 = false
   <-> Globals._oscs g !! wave = None)
  /\ (Globals._oscs g !! wave = None ->
      Osc.Oscillator.__init__ wave g
      = (Py.Raise (Py.NameError ("Wave '" +:+ wave +:+ "' does not exist!")),
         g))
  /\ (forall f : WaveGenerator F,
        Globals._oscs g !! wave = Some f ->
        Osc.Oscillator.__init__ wave g = (Py.Ok (Osc.Oscillator.mk wave f), g))
  /\ (forall o : Osc.Oscillator.t F,
        (Osc.Oscillator.__init__ wave g).1 = Py.Ok o ->
        Globals._oscs g !! wave = Some (Osc.Oscillator._wave_func o)
        /\ (forall (name : string) (wave_func : WaveGenerator F)
                   (t : Time.t F) (freq phase : F),
              (Osc.Oscillator.oscillate o t freq phase
                 (Osc.add_oscillator name wave_func g).2).1
              = (Osc.Oscillator.oscillate o t freq phase g).1)
        /\ (forall (g' : Globals.t F) (t : Time.t F) (freq phase : F),
              Globals._sampling_rate g' = Globals._sampling_rate g ->
              (Osc.Oscillator.oscillate o t freq phase g').1
              = (Osc.Oscillator.oscillate o t freq phase g).1)).
Proof.
  unfold Osc.Oscillator.__init__, mbind, Py.M_bind, Py.get, Py.raise, mret,
    Py.M_ret.
  destruct (Globals._oscs g !! wave) as [f|] eqn:Hlook; simpl.
  - split; [split; done|]. split; [done|]. split.
    + intros f' [= <-]. done.
    + intros o [= <-]. simpl. split; [done|]. split.
      * intros name wave_func t freq phase.
        apply oscillate_registry_irrelevant.
        destruct (Globals._oscs g !! name) as [old|] eqn:Hname.
        -- by erewrite add_oscillator_present.
        -- by rewrite add_oscillator_fresh.
      * intros g' t freq phase Hrate. by apply oscillate_registry_irrelevant.
  - split; [split; done|]. split; [done|]. split; [done|]. intros o [=].
Qed.

End RegistryFacts.

Section BuiltinRegistry.
Context {F : Type} `{Num.Scalar F} `{Num.Trig F}.

Lemma builtin_oscs_lookup :
  Osc.builtin_oscs !! "Sine" = Some (Osc._generate_sin (F:=F))
  /\ Osc.builtin_oscs !! "Square" = Some (Osc._generate_sqr (F:=F))
  /\ Osc.builtin_oscs !! "Triangle" = Some (Osc._generate_tri (F:=F))
  /\ Osc.builtin_oscs !! "Sawtooth" = Some (Osc._generate_saw (F:=F)).
Proof.
  unfold Osc.builtin_oscs. split; [|split; [|split]]; by simplify_map_eq.
Qed.

(** Registering under the built-in name ["Sine"] in the freshly loaded
    package raises and leaves the generator of ["Sine"] in place. *)
Lemma add_oscillator_sine_refused (wave_func : WaveGenerator F) :
  Osc.add_oscillator "Sine" wave_func Osc.init
  = (Py.Raise (Py.NameError "Wave name 'Sine' already exists!"), Osc.init)
  /\ Globals._oscs (Osc.add_oscillator "Sine" wave_func Osc.init).2 !! "Sine"
     = Some (Osc._generate_sin (F:=F)).
Proof.
  destruct builtin_oscs_lookup as (Hsin & _).
  assert (Osc.add_oscillator "Sine" wave_func Osc.init
          = (Py.Raise (Py.NameError "Wave name 'Sine' already exists!"),
             Osc.init)) as Heq
    by (by eapply (add_oscillator_present Osc.init "Sine")).
  split; [done|]. by rewrite Heq.
Qed.

End BuiltinRegistry.

Section ExactRegistry.

(** A custom wave registered in the freshly loaded package. *)
Lemma add_oscillator_spec_witness :
  exists g' : Globals.t R,
    Osc.add_oscillator "Organ" Osc._generate_saw Osc.init = (Py.Ok (), g')
    /\ Globals._oscs g' = <["Organ" := Osc._generate_saw]> Osc.builtin_oscs
    /\ Globals._oscs g' !! "Organ" = Some Osc._generate_saw
    /\ (forall other : string, other <> "Organ" ->
          Globals._oscs g' !! other = Osc.builtin_oscs !! other)
    /\ Globals._sampling_rate g' = 44100%Z.
Proof.
  apply (proj2 (add_oscillator_spec Osc.init "Organ" Osc._generate_saw)).
  reflexivity.
Defined.

(** [Oscillator('Sine')] in the freshly loaded package, and a wave
    registered afterwards. *)
Lemma oscillator_init_spec_witness :
  Osc.Oscillator.__init__ "Sine" (Osc.init (F:=R))
  = (Py.Ok (Osc.Oscillator.mk "Sine" Osc._generate_sin), Osc.init)
  /\ (forall (t : Time.t R) (freq phase : R),
        (Osc.Oscillator.oscillate (Osc.Oscillator.mk "Sine" Osc._generate_sin)
           t freq phase
           (Osc.add_oscillator "Organ" Osc._generate_saw Osc.init).2).1
        = (Osc.Oscillator.oscillate (Osc.Oscillator.mk "Sine" Osc._generate_sin)
             t freq phase Osc.init).1).
Proof.
  destruct (oscillator_init_spec (Osc.init (F:=R)) "Sine")
    as (_ & _ & Hsome & Hlater).
  assert (Osc.Oscillator.__init__ "Sine" (Osc.init (F:=R))
          = (Py.Ok (Osc.Oscillator.mk "Sine" Osc._generate_sin), Osc.init))
    as Hinit by (apply Hsome; reflexivity).
  split; [exact Hinit|].
  intros t freq phase.
  destruct (Hlater (Osc.Oscillator.mk "Sine" Osc._generate_sin))
    as (_ & Hadd & _).
  - by rewrite Hinit.
  - apply Hadd.
Defined.

(** An unregistered name is refused. *)
Lemma oscillator_init_unknown :
  Osc.Oscillator.__init__ "Organ" (Osc.init (F:=R))
  = (Py.Raise (Py.NameError "Wave 'Organ' does not exist!"), Osc.init).
Proof. reflexivity. Qed.

End ExactRegistry.

(* ===================================================================== *)
(** ** The Fourier transform *)
(* ===================================================================== *)

Section TransformFacts.
Context {F : Type} `{Num.Scalar F} `{Num.Trig F}.

Lemma fft_empty : Np.fft (F:=F) [] =
  Py.Raise Np.no_data_points.
Proof. reflexivity. Qed.

Lemma fft_nonempty (a : list F) :
  a <> [] ->
  Np.fft a = Py.Ok (Np.dft_bin a <$> seqZ 0 (Z.of_nat (length a))).
Proof.
  intros Ha. unfold Np.fft.
  destruct a as [|x a]; [done|].
  destruct (Z.ltb_spec (Z.of_nat (length (x :: a))) 1) as [Hlt|_]; [|done].
  simpl in Hlt. lia.
Qed.

(** The labels [0 .. (n-1)//2] and [-(n//2) .. -1] are [n] in number. *)
Lemma fftfreq_length (n : Z) (d : F) (labels : list F) :
  (0 <= n)%Z -> Np.fftfreq n d = Py.Ok labels -> length labels = Z.to_nat n.
Proof.
  intros Hn. unfold Np.fftfreq.
  destruct (Num.eqb _ _); [done|]. intros [= <-].
  rewrite length_fmap, length_app, !length_seqZ.
  pose proof (Z.div_mod n 2 ltac:(lia)) as Hdm.
  pose proof (Z.mod_pos_bound n 2 ltac:(lia)) as Hmod.
  pose proof (Z.div_mod (n - 1) 2 ltac:(lia)) as Hdm'.
  pose proof (Z.mod_pos_bound (n - 1) 2 ltac:(lia)) as Hmod'.
  lia.
Qed.

(** The empty buffer is refused, and the globals stay as they were. *)
Lemma fourier_transform_empty (g : Globals.t F) :
  Osc.fourier_transform [] g
  = (Py.Raise Np.no_data_points, g).
Proof. reflexivity. Qed.

(** Whatever the arithmetic: a call that returns gives two arrays of the
    length of the input, and no call changes the globals. *)
Lemma fourier_transform_returned (wave : list F) (g g' : Globals.t F)
    (freq_arr : list F) (fft_arr : list (F * F)) :
  Osc.fourier_transform wave g = (Py.Ok (freq_arr, fft_arr), g') ->
  g' = g /\ length freq_arr = length wave /\ length fft_arr = length wave.
Proof.
  destruct wave as [|x wave]; [by rewrite fourier_transform_empty|].
  unfold Osc.fourier_transform, mbind, Py.M_bind, Py.lift,
    Time.get_sampling_rate, Py.get, Py.raise, mret, Py.M_ret.
  rewrite fft_nonempty by done. simpl.
  destruct (Globals._sampling_rate g =? 0)%Z; [done|].
  destruct (Np.fftfreq _ _) as [labels|e] eqn:Hfreq; [|done].
  intros [= <- <- <-].
  apply fftfreq_length in Hfreq; [|lia].
  rewrite length_fmap, length_seqZ in *.
  split; [done|]. simpl in *. lia.
Qed.

End TransformFacts.

Section ExactTransform.
Local Open Scope R_scope.

(** C10 (as amended).  In exact arithmetic, with a sampling rate other than
    zero, [fourier_transform] of a buffer that is not empty returns the pair
    (bin labels, spectrum), both of the length of the buffer, and leaves the
    globals (registry and sampling rate) as they were; the buffer is a value
    that the call only reads. *)
Theorem fourier_transform_lengths (wave : list R) (g : Globals.t R) :
  wave <> [] -> Globals._sampling_rate g <> 0%Z ->
  exists (freq_arr : list R) (fft_arr : list (R * R)),
    Osc.fourier_transform wave g = (Py.Ok (freq_arr, fft_arr), g)
    /\ length freq_arr = length wave
    /\ length fft_arr = length wave.
Proof.
  intros Hwave Hrate.
  assert (exists freq_arr fft_arr,
            Osc.fourier_transform wave g = (Py.Ok (freq_arr, fft_arr), g))
    as (freq_arr & fft_arr & Heq).
  { unfold Osc.fourier_transform, mbind, Py.M_bind, Py.lift,
      Time.get_sampling_rate, Py.get, Py.raise, mret, Py.M_ret.
    rewrite fft_nonempty by done. simpl.
    destruct (Z.eqb_spec (Globals._sampling_rate g) 0) as [?|_]; [done|].
    unfold Np.fftfreq. simpl. unfold Num.Exact.eqb.
    destruct (Req_dec_T _ _) as [E|_]; [|by eauto].
    exfalso.
    assert (IZR (Globals._sampling_rate g) <> 0) by (by apply not_0_IZR).
    assert (IZR (Z.of_nat (length (Np.dft_bin wave <$>
              seqZ 0 (Z.of_nat (length wave))))) <> 0) as Hlen.
    { apply not_0_IZR. rewrite length_fmap, length_seqZ.
      destruct wave; [done|]. simpl. lia. }
    apply Rmult_integral in E as [E|E]; [done|].
    unfold Rdiv in E. apply Rmult_integral in E as [E|E]; [lra|].
    by apply Rinv_neq_0_compat in E. }
  exists freq_arr, fft_arr. split; [done|].
  by destruct (fourier_transform_returned _ _ _ _ _ Heq) as (_ & ? & ?).
Qed.

(** Three samples at 44100 Hz. *)
Lemma fourier_transform_lengths_witness :
  exists (freq_arr : list R) (fft_arr : list (R * R)),
    Osc.fourier_transform [0; 1; 0] Osc.init
    = (Py.Ok (freq_arr, fft_arr), Osc.init)
    /\ length freq_arr = 3%nat
    /\ length fft_arr = 3%nat.
Proof.
  apply (fourier_transform_lengths [0; 1; 0] Osc.init); [done | done].
Defined.

(** C10, counterexample.  The buffer of length zero: [np.fft.fft] raises, so
    no pair of arrays is returned. *)
Lemma fourier_transform_empty_raises :
  length ([] : list R) = 0%nat
  /\ Osc.fourier_transform ([] : list R) Osc.init
     = (Py.Raise Np.no_data_points, Osc.init).
Proof. split; reflexivity. Qed.

End ExactTransform.

(* ===================================================================== *)
(** ** Tracks *)
(* ===================================================================== *)

Section TrackFacts.
Context {F : Type}.

(** Whatever the track, [compile_] returns [None]: it neither raises nor
    produces an array. *)
Lemma compile_returns_None (self : Track.t F) :
  Track.compile_ self = Py.Ok Py.NoneV
  /\ (forall buffer : list F, Track.compile_ self <> Py.Ok (Py.ArrayV buffer)).
Proof. split; [done|]. intros buffer. unfold Track.compile_. congruence. Qed.

End TrackFacts.

Section ExactTracks.

(** C3, on the code.  A sine track of one step, [('A4', '1/4')]: the call
    returns [None], not the buffer the step would oscillate. *)
Lemma compile_one_step_is_None :
  let osc := Osc.Oscillator.mk (F:=R) "Sine" Osc._generate_sin in
  let track := Track.__init__ osc [("A4", "1/4")] in
  Track._steps track <> []
  /\ Track.compile_ track = Py.Ok Py.NoneV
  /\ (forall buffer : list R, Track.compile_ track <> Py.Ok (Py.ArrayV buffer)).
Proof.
  intros osc track. split; [done|]. apply compile_returns_None.
Qed.

(** C4, on the code.  A sine track without steps: the call does not raise,
    and returns [None], which is not the empty buffer. *)
Lemma compile_no_step_is_None :
  let osc := Osc.Oscillator.mk (F:=R) "Sine" Osc._generate_sin in
  let track := Track.__init__ osc [] in
  Track._steps track = []
  /\ Track.compile_ track = Py.Ok Py.NoneV
  /\ Track.compile_ track <> Py.Ok (Py.ArrayV []).
Proof.
  intros osc track. split; [done|]. split; [done|].
  apply compile_returns_None.
Qed.

End ExactTracks.

(* ===================================================================== *)
(** ** The mixer *)
(* ===================================================================== *)

Section MixerFacts.
Context {F : Type} `{Num.Scalar F}.

Lemma setdefault_present {V : Type} (key : string) (default v : V)
    (d : gmap string V) :
  d !! key = Some v -> Mixer.setdefault key default d = (v, d).
Proof. intros Hv. unfold Mixer.setdefault. by rewrite Hv. Qed.

Lemma setdefault_absent {V : Type} (key : string) (default : V)
    (d : gmap string V) :
  d !! key = None ->
  Mixer.setdefault key default d = (default, <[key := default]> d).
Proof. intros Hv. unfold Mixer.setdefault. by rewrite Hv. Qed.

Lemma setdefault_dom {V : Type} (key : string) (default : V)
    (d : gmap string V) :
  dom (Mixer.setdefault key default d).2 = {[key]} ∪ dom d.
Proof.
  unfold Mixer.setdefault. destruct (d !! key) as [v|] eqn:Hv; simpl.
  - apply (elem_of_dom_2 (D:=gset string)) in Hv.
    symmetry. apply subseteq_union_1_L. by apply singleton_subseteq_l.
  - by rewrite dom_insert_L.
Qed.

Lemma add_track_unfold (osc : Osc.Oscillator.t F)
    (steps : list (string * string)) (name : string) (m : Mixer.t F) :
  Mixer.add_track osc steps name m
  = (Py.Ok (),
     Mixer.mk
       (Mixer.setdefault name (Track.__init__ osc steps) (Mixer._tracks m)).2
       (Mixer.setdefault name (Num.of_int 1) (Mixer._levels m)).2).
Proof. reflexivity. Qed.

(** C5.  On a mixer whose two mappings have the same keys: [add_track] under
    a name that is not present returns, stores the new track under the name
    and sets its level to [1.0], other entries kept; under a name that is
    present it returns and leaves the mixer, so the stored track and its
    level, exactly as it was. *)
Theorem add_track_spec (m : Mixer.t F) (osc : Osc.Oscillator.t F)
    (steps : list (string * string)) (name : string) :
  keys_agree m ->
  (name ∉ dom (Mixer._tracks m) ->
     Mixer.add_track osc steps name m
     = (Py.Ok (),
        Mixer.mk (<[name := Track.__init__ osc steps]> (Mixer._tracks m))
                 (<[name := Num.of_int 1]> (Mixer._levels m))))
  /\ (name ∈ dom (Mixer._tracks m) ->
      Mixer.add_track osc steps name m = (Py.Ok (), m)).
Proof.
  intros Hkeys. rewrite add_track_unfold. split; intros Hname.
  - assert (Mixer._tracks m !! name = None) as Ht
      by (by apply (not_elem_of_dom (D:=gset string))).
    assert (Mixer._levels m !! name = None) as Hl.
    { apply (not_elem_of_dom (D:=gset string)). by rewrite <- Hkeys. }
    by rewrite !setdefault_absent.
  - assert (name ∈ dom (Mixer._levels m)) as Hname' by (by rewrite <- Hkeys).
    apply (elem_of_dom (D:=gset string)) in Hname as [track Ht].
    apply (elem_of_dom (D:=gset string)) in Hname' as [level Hl].
    rewrite (setdefault_present _ _ _ _ Ht), (setdefault_present _ _ _ _ Hl).
    by destruct m.
Qed.

Lemma compile_unfold (m : Mixer.t F) : Mixer.compile_ m = (Py.Ok (), m).
Proof.
  unfold Mixer.compile_, mbind, Py.M_bind, Py.get, Py.lift.
  assert (forall items : list (string * Track.t F),
            exists r, mapM (fun item => Track.compile_ item.2) items = Py.Ok r)
    as Hall.
  { induction items as [|item items [r IH]]; [by eexists|].
    simpl. rewrite IH. by eexists. }
  by destruct (Hall (map_to_list (Mixer._tracks m))) as [r ->].
Qed.

Lemma mixer_do_keys (c : mixer_call F) (m : Mixer.t F) :
  keys_agree m -> (mixer_do c m).1 = Py.Ok () /\ keys_agree (mixer_do c m).2.
Proof.
  intros Hkeys. destruct c as [osc steps name| | |]; unfold mixer_do.
  - rewrite add_track_unfold. split; [done|].
    unfold keys_agree in *. simpl. rewrite !setdefault_dom. by rewrite Hkeys.
  - by rewrite compile_unfold.
  - done.
  - unfold Mixer.compile_play, mbind, Py.M_bind. by rewrite compile_unfold.
Qed.

(** C9.  A new mixer has the same keys in [_tracks] and in [_levels], and
    so has the mixer after any sequence of [add_track] (with any arguments),
    [compile_], [play] and [compile_play] calls; from such a mixer every one
    of these calls returns. *)
Theorem mixer_keys_agree (calls : list (mixer_call F)) :
  keys_agree (Mixer.__init__ (F:=F))
  /\ keys_agree (mixer_run calls Mixer.__init__)
  /\ (forall c : mixer_call F,
        (mixer_do c (mixer_run calls Mixer.__init__)).1 = Py.Ok ()
        /\ keys_agree (mixer_do c (mixer_run calls Mixer.__init__)).2).
Proof.
  assert (keys_agree (Mixer.__init__ (F:=F))) as Hinit by done.
  assert (forall (cs : list (mixer_call F)) (m : Mixer.t F),
            keys_agree m -> keys_agree (mixer_run cs m)) as Hrun.
  { induction cs as [|c cs IH]; intros m Hm; [done|].
    simpl. apply IH. by apply mixer_do_keys. }
  split; [done|]. split; [by apply Hrun|].
  intros c. apply mixer_do_keys. by apply Hrun.
Qed.

End MixerFacts.

Section ExactMixer.

(** A mixer with one sine track, and a second [add_track] under the same
    name with a square oscillator. *)
Lemma add_track_spec_witness :
  let sine := Osc.Oscillator.mk (F:=R) "Sine" Osc._generate_sin in
  let square := Osc.Oscillator.mk (F:=R) "Square" Osc._generate_sqr in
  let m := Mixer.mk {["lead" := Track.__init__ sine [("A4", "1/4")]]}
                    {["lead" := 1%R]} in
  Mixer.add_track square [] "bass" m
  = (Py.Ok (),
     Mixer.mk (<["bass" := Track.__init__ square []]> (Mixer._tracks m))
              (<["bass" := 1%R]> (Mixer._levels m)))
  /\ Mixer.add_track square [] "lead" m = (Py.Ok (), m).
Proof.
  intros sine square m.
  assert (keys_agree m) as Hkeys
    by (unfold keys_agree, m; simpl; by rewrite !dom_singleton_L).
  split.
  - apply (proj1 (@add_track_spec R Num.exact m square [] "bass" Hkeys)).
    unfold m. simpl. rewrite dom_singleton_L. set_solver.
  - apply (proj2 (@add_track_spec R Num.exact m square [] "lead" Hkeys)).
    unfold m. simpl. rewrite dom_singleton_L. set_solver.
Defined.

(** Two [add_track] calls under one name around a [compile_], then
    [compile_play] and [play]. *)
Lemma mixer_keys_agree_witness :
  let sine := Osc.Oscillator.mk (F:=R) "Sine" Osc._generate_sin in
  let square := Osc.Oscillator.mk (F:=R) "Square" Osc._generate_sqr in
  keys_agree
    (mixer_run [CallAddTrack sine [("A4", "1/4")] "lead"; CallCompile;
                CallAddTrack square [] "lead"; CallCompilePlay; CallPlay]
       Mixer.__init__).
Proof.
  intros sine square.
  apply (proj1 (proj2 (@mixer_keys_agree R Num.exact
    [CallAddTrack sine [("A4", "1/4")] "lead"; CallCompile;
     CallAddTrack square [] "lead"; CallCompilePlay; CallPlay]))).
Defined.

End ExactMixer.

(* ===================================================================== *)
(** ** Oscillation from end to end *)
(* ===================================================================== *)

(** A name the registry holds constructs an oscillator with the generator
    stored under it. *)
Lemma oscillator_init_found {F : Type} `{Num.Scalar F} (g : Globals.t F)
    (wave : string) (f : WaveGenerator F) :
  Globals._oscs g !! wave = Some f ->
  Osc.Oscillator.__init__ wave g = (Py.Ok (Osc.Oscillator.mk wave f), g).
Proof.
  intros Hf.
  unfold Osc.Oscillator.__init__, mbind, Py.M_bind, Py.get.
  by rewrite Hf.
Qed.

Section BuiltinMembers.
Context {F : Type} `{Num.Scalar F} `{Num.Trig F}.

(** The registry of the freshly loaded package holds, under the value of
    each member of [Oscillators], the default generator of that member. *)
Lemma builtin_oscs_member (w : Osc.Oscillators) :
  Osc.builtin_oscs !! Osc.value w = Some (builtin_generator (F:=F) w).
Proof.
  destruct (builtin_oscs_lookup (F:=F)) as (? & ? & ? & ?).
  by destruct w.
Qed.

End BuiltinMembers.

Section ExactOscillate.
Local Open Scope R_scope.




End ExactOscillate.

Section ExactBuiltinOscillate.
Local Open Scope R_scope.







End ExactBuiltinOscillate.

(* ===================================================================== *)
(** ** Sequences of registrations *)
(* ===================================================================== *)

Section RegistrySequences.
Context {F : Type} `{Num.Scalar F}.

(** One [add_oscillator] call, whatever it returns: the registry keeps every
    entry it had and gains the new one if the name was free. *)
Lemma add_oscillator_lookup (g : Globals.t F) (name other : string)
    (wave_func : WaveGenerator F) :
  Globals._oscs (Osc.add_oscillator name wave_func g).2 !! other
  = match Globals._oscs g !! other with
    | Some f => Some f
    | None => if decide (name = other) then Some wave_func else None
    end.
Proof.
  destruct (Globals._oscs g !! name) as [old|] eqn:Hname.
  - rewrite (add_oscillator_present _ _ _ _ Hname). simpl.
    destruct (Globals._oscs g !! other) as [f|] eqn:Hother; [done|].
    case_decide; [congruence|done].
  - rewrite (add_oscillator_fresh _ _ _ Hname). simpl.
    case_decide as Heq.
    + subst other. by rewrite lookup_insert_eq, Hname.
    + rewrite lookup_insert_ne by done. by destruct (Globals._oscs g !! other).
Qed.

Lemma add_oscillator_rate (g : Globals.t F) (name : string)
    (wave_func : WaveGenerator F) :
  Globals._sampling_rate (Osc.add_oscillator name wave_func g).2
  = Globals._sampling_rate g.
Proof.
  destruct (Globals._oscs g !! name) as [old|] eqn:Hname.
  - by rewrite (add_oscillator_present _ _ _ _ Hname).
  - by rewrite (add_oscillator_fresh _ _ _ Hname).
Qed.

Lemma registry_run_lookup (calls : list (string * WaveGenerator F))
    (g : Globals.t F) (name : string) :
  Globals._oscs (registry_run calls g) !! name
  = match Globals._oscs g !! name with
    | Some f => Some f
    | None => first_registered name calls
    end.
Proof.
  revert g. induction calls as [|[n wave_func] calls IH]; intros g; simpl.
  - by destruct (Globals._oscs g !! name).
  - rewrite IH, add_oscillator_lookup.
    destruct (Globals._oscs g !! name) as [f|]; [done|].
    by case_decide.
Qed.

Lemma registry_run_rate (calls : list (string * WaveGenerator F))
    (g : Globals.t F) :
  Globals._sampling_rate (registry_run calls g) = Globals._sampling_rate g.
Proof.
  revert g. induction calls as [|[n wave_func] calls IH]; intros g; simpl;
    [done|]. by rewrite IH, add_oscillator_rate.
Qed.

(** X3.  Registering a generator under a free name makes that name
    constructible: before the call [Oscillator(name)] raises, after it the
    constructor returns an oscillator holding exactly the registered
    generator, and the construction under any other name goes as before. *)
Theorem add_oscillator_then_init (g : Globals.t F) (name : string)
    (wave_func : WaveGenerator F) :
  Globals._oscs g !! name = None ->
  let g' := (Osc.add_oscillator name wave_func g).2 in
  Osc.Oscillator.__init__ name g
  = (Py.Raise (Py.NameError ("Wave '" +:+ name +:+ "' does not exist!")), g)
  /\ Osc.Oscillator.__init__ name g'
     = (Py.Ok (Osc.Oscillator.mk name wave_func), g')
  /\ (forall other : string, other <> name ->
        (Osc.Oscillator.__init__ other g').1
        = (Osc.Oscillator.__init__ other g).1).
Proof.
  intros Hname g'. split; [|split].
  - unfold Osc.Oscillator.__init__, mbind, Py.M_bind, Py.get, Py.raise.
    by rewrite Hname.
  - apply oscillator_init_found. unfold g'.
    rewrite add_oscillator_lookup, Hname. by case_decide.
  - intros other Hother.
    assert (Globals._oscs g' !! other = Globals._oscs g !! other) as Hsame.
    { unfold g'. rewrite add_oscillator_lookup.
      destruct (Globals._oscs g !! other); [done|]. case_decide; congruence. }
    unfold Osc.Oscillator.__init__, mbind, Py.M_bind, Py.get, Py.raise, mret,
      Py.M_ret.
    rewrite Hsame. by destruct (Globals._oscs g !! other).
Qed.

(** X4.  After any sequence of [add_oscillator] calls, failed ones included,
    a name that was registered keeps its generator, a name that was free
    holds the generator of the first call under that name (none if there was
    no such call), and the sampling rate is what it was: the registry only
    grows, and no call replaces or removes an entry. *)
Theorem registry_run_first_wins (calls : list (string * WaveGenerator F))
    (g : Globals.t F) (name : string) :
  Globals._oscs (registry_run calls g) !! name
  = match Globals._oscs g !! name with
    | Some f => Some f
    | None => first_registered name calls
    end
  /\ Globals._sampling_rate (registry_run calls g) = Globals._sampling_rate g.
Proof. split; [apply registry_run_lookup|apply registry_run_rate]. Qed.

End RegistrySequences.

Section BuiltinSequences.
Context {F : Type} `{Num.Scalar F} `{Num.Trig F}.

(** X5.  After any sequence of [add_oscillator] calls in the freshly loaded
    package, the value of every member of [Oscillators] still constructs an
    oscillator with the default generator of that member; distinct members
    have distinct values. *)
Theorem builtin_always_constructible (w : Osc.Oscillators)
    (calls : list (string * WaveGenerator F)) :
  Osc.Oscillator.__init__ (Osc.value w) (registry_run calls Osc.init)
  = (Py.Ok (Osc.Oscillator.mk (Osc.value w) (builtin_generator w)),
     registry_run calls Osc.init)
  /\ (forall w' : Osc.Oscillators, Osc.value w' = Osc.value w -> w' = w).
Proof.
  split.
  - apply oscillator_init_found. rewrite registry_run_lookup.
    unfold Osc.init. simpl. by rewrite builtin_oscs_member.
  - intros w'. by destruct w, w'.
Qed.

End BuiltinSequences.

Section ExactRegistrySequences.

(** A sawtooth registered as an organ in the freshly loaded package. *)
Lemma add_oscillator_then_init_witness :
  let g' := (Osc.add_oscillator "Organ" Osc._generate_saw Osc.init).2 in
  Osc.Oscillator.__init__ "Organ" (Osc.init (F:=R))
  = (Py.Raise (Py.NameError "Wave 'Organ' does not exist!"), Osc.init)
  /\ Osc.Oscillator.__init__ "Organ" g'
     = (Py.Ok (Osc.Oscillator.mk "Organ" Osc._generate_saw), g')
  /\ (forall other : string, other <> "Organ" ->
        (Osc.Oscillator.__init__ other g').1
        = (Osc.Oscillator.__init__ other (Osc.init (F:=R))).1).
Proof.
  apply (add_oscillator_then_init (F:=R) Osc.init "Organ" Osc._generate_saw).
  reflexivity.
Defined.

End ExactRegistrySequences.

(* ===================================================================== *)
(** ** Periods, symmetry and zeros of the default waves *)
(* ===================================================================== *)

Section ExactPeriods.
Local Open Scope R_scope.






Lemma sign_opp (s : R) : Np.sign (- s) = - Np.sign s.
Proof.
  destruct (sign_exact s) as (Hp & Hz & Hn).
  destruct (sign_exact (- s)) as (Hp' & Hz' & Hn').
  destruct (Rtotal_order s 0) as [Hs|[Hs|Hs]].
  - rewrite Hn, Hp' by lra. lra.
  - rewrite Hz, Hz' by lra. lra.
  - rewrite Hp, Hn' by lra. lra.
Qed.

(** X8.  In exact arithmetic the sine, the square and the triangle are odd
    in (frequency, phase): negating both negates every sample.  (The
    sawtooth is not: at its jump it takes the value -1 on both sides.) *)
Theorem generators_odd (t : list R) (freq phase : R) :
  Osc._generate_sin t (- freq) (- phase)
  = Ropp <$> Osc._generate_sin t freq phase
  /\ Osc._generate_sqr t (- freq) (- phase)
     = Ropp <$> Osc._generate_sqr t freq phase
  /\ Osc._generate_tri t (- freq) (- phase)
     = Ropp <$> Osc._generate_tri t freq phase.
Proof.
  pose proof PI_RGT_0 as Hpi.
  assert (forall ti, 2 * PI * - freq * ti + - phase
                     = - (2 * PI * freq * ti + phase)) as Harg
    by (intros ti; ring).
  unfold Osc._generate_sin, Osc._generate_sqr, Osc._generate_tri.
  rewrite <- !list_fmap_compose.
  split; [|split]; apply list_fmap_ext; intros i ti _; simpl;
    rewrite Harg, sin_neg.
  - done.
  - apply sign_opp.
  - rewrite asin_opp. field. lra.
Qed.

(** The sawtooth at its jump, for a frequency of one and of minus one. *)
Lemma generate_saw_not_odd :
  Osc._generate_saw [1 / 2] 1 0 = [-1]
  /\ Osc._generate_saw [1 / 2] (- 1) (- 0) = [-1].
Proof.
  pose proof PI_RGT_0 as Hpi.
  unfold Osc._generate_saw. simpl. unfold Num.Exact.floor, Num.half. simpl.
  split; f_equal.
  - rewrite (Zfloor_eq 1); [field; lra|].
    replace (1 / 2 + 1 * (1 / 2) + 0 / (2 * PI)) with 1 by (field; lra). lra.
  - rewrite (Zfloor_eq 0); [field; lra|].
    replace (1 / 2 + - 1 * (1 / 2) + - 0 / (2 * PI)) with 0 by (field; lra).
    lra.
Qed.

End ExactPeriods.

Section ExactZeros.
Local Open Scope R_scope.



End ExactZeros.

(* ===================================================================== *)
(** ** Bin labels of the Fourier transform *)
(* ===================================================================== *)

Section ExactLabels.
Local Open Scope R_scope.




End ExactLabels.

(* ===================================================================== *)
(** ** Sequences of mixer calls *)
(* ===================================================================== *)

Section MixerSequences.
Context {F : Type} `{Num.Scalar F}.

Lemma setdefault_lookup {V : Type} (key other : string) (default : V)
    (d : gmap string V) :
  (Mixer.setdefault key default d).2 !! other
  = match d !! other with
    | Some v => Some v
    | None => if decide (key = other) then Some default else None
    end.
Proof.
  unfold Mixer.setdefault. destruct (d !! key) as [v|] eqn:Hkey; simpl.
  - destruct (d !! other) as [v'|] eqn:Hother; [done|].
    case_decide; [congruence|done].
  - case_decide as Heq.
    + subst other. by rewrite lookup_insert_eq, Hkey.
    + rewrite lookup_insert_ne by done. by destruct (d !! other).
Qed.

Lemma mixer_do_noop (c : mixer_call F) (m : Mixer.t F) :
  match c with CallAddTrack _ _ _ => False | _ => True end ->
  mixer_do c m = (Py.Ok (), m).
Proof.
  destruct c; [done| | |]; intros _; unfold mixer_do.
  - apply compile_unfold.
  - done.
  - unfold Mixer.compile_play, mbind, Py.M_bind. by rewrite compile_unfold.
Qed.

Lemma mixer_run_tracks (calls : list (mixer_call F)) (m : Mixer.t F)
    (name : string) :
  Mixer._tracks (mixer_run calls m) !! name
  = match Mixer._tracks m !! name with
    | Some track => Some track
    | None => first_track name calls
    end.
Proof.
  revert m. induction calls as [|c calls IH]; intros m; simpl.
  - by destruct (Mixer._tracks m !! name).
  - rewrite IH. destruct c as [osc steps n| | |].
    + unfold mixer_do. rewrite add_track_unfold. simpl.
      rewrite setdefault_lookup.
      destruct (Mixer._tracks m !! name); [done|]. by case_decide.
    + by rewrite mixer_do_noop.
    + by rewrite mixer_do_noop.
    + by rewrite mixer_do_noop.
Qed.

Lemma mixer_run_levels (calls : list (mixer_call F)) (m : Mixer.t F)
    (name : string) :
  Mixer._levels (mixer_run calls m) !! name
  = match Mixer._levels m !! name with
    | Some level => Some level
    | None => (fun _ => Num.of_int 1) <$> first_track name calls
    end.
Proof.
  revert m. induction calls as [|c calls IH]; intros m; simpl.
  - by destruct (Mixer._levels m !! name).
  - rewrite IH. destruct c as [osc steps n| | |].
    + unfold mixer_do. rewrite add_track_unfold. simpl.
      rewrite setdefault_lookup.
      destruct (Mixer._levels m !! name); [done|]. by case_decide.
    + by rewrite mixer_do_noop.
    + by rewrite mixer_do_noop.
    + by rewrite mixer_do_noop.
Qed.

(** X11.  After any sequence of calls on a new mixer, the track stored
    under a name is the track of the first [add_track] call under that
    name, and no track is stored under a name no such call used. *)
Theorem mixer_first_track_wins (calls : list (mixer_call F)) (name : string) :
  Mixer._tracks (mixer_run calls Mixer.__init__) !! name
  = first_track name calls.
Proof. by rewrite mixer_run_tracks. Qed.

(** X12.  After any sequence of calls on a new mixer, every name that has
    a track has the level [1.0], and no other name has a level: no method
    changes a level. *)
Theorem mixer_levels_all_one (calls : list (mixer_call F)) (name : string) :
  Mixer._levels (mixer_run calls Mixer.__init__) !! name
  = (fun _ => Num.of_int 1) <$> first_track name calls.
Proof. by rewrite mixer_run_levels. Qed.

(** X13.  On any mixer, every call returns, and [compile_], [play] and
    [compile_play] change nothing: the mixer after a sequence of calls is
    the mixer after its [add_track] calls alone. *)
Theorem mixer_only_add_track_matters (calls : list (mixer_call F))
    (m : Mixer.t F) :
  mixer_run calls m = mixer_run (add_track_calls calls) m
  /\ (forall c : mixer_call F, (mixer_do c m).1 = Py.Ok ()).
Proof.
  split.
  - revert m. induction calls as [|c calls IH]; intros m; [done|].
    destruct c as [osc steps n| | |]; cbn [mixer_run add_track_calls].
    + apply IH.
    + rewrite (mixer_do_noop CallCompile) by done. apply IH.
    + rewrite (mixer_do_noop CallPlay) by done. apply IH.
    + rewrite (mixer_do_noop CallCompilePlay) by done. apply IH.
  - intros c. destruct c as [osc steps n| | |].
    + unfold mixer_do. by rewrite add_track_unfold.
    + by rewrite mixer_do_noop.
    + by rewrite mixer_do_noop.
    + by rewrite mixer_do_noop.
Qed.

Lemma setdefault_twice {V : Type} (key : string) (a b : V)
    (d : gmap string V) :
  (Mixer.setdefault key b (Mixer.setdefault key a d).2).2
  = (Mixer.setdefault key a d).2.
Proof.
  apply map_eq. intros other. rewrite !setdefault_lookup.
  destruct (d !! other); [done|]. by case_decide.
Qed.

Lemma setdefault_swap {V : Type} (key1 key2 : string) (a b : V)
    (d : gmap string V) :
  key1 <> key2 ->
  (Mixer.setdefault key2 b (Mixer.setdefault key1 a d).2).2
  = (Mixer.setdefault key1 a (Mixer.setdefault key2 b d).2).2.
Proof.
  intros Hne. apply map_eq. intros other. rewrite !setdefault_lookup.
  destruct (d !! other); [done|]. repeat case_decide; congruence.
Qed.

(** X14.  On any mixer, a second [add_track] under the same name changes
    nothing, whatever its oscillator and steps, and two [add_track] calls
    under different names give the same mixer in either order. *)
Theorem add_track_twice_and_swap (m : Mixer.t F)
    (osc1 osc2 : Osc.Oscillator.t F) (steps1 steps2 : list (string * string))
    (name1 name2 : string) :
  mixer_run [CallAddTrack osc1 steps1 name1; CallAddTrack osc2 steps2 name1] m
  = mixer_run [CallAddTrack osc1 steps1 name1] m
  /\ (name1 <> name2 ->
      mixer_run [CallAddTrack osc1 steps1 name1;
                 CallAddTrack osc2 steps2 name2] m
      = mixer_run [CallAddTrack osc2 steps2 name2;
                   CallAddTrack osc1 steps1 name1] m).
Proof.
  split; [|intros Hne]; cbn [mixer_run]; unfold mixer_do;
    rewrite !add_track_unfold; simpl.
  - by rewrite !setdefault_twice.
  - by rewrite (setdefault_swap name1 name2 _ _ (Mixer._tracks m)),
      (setdefault_swap name1 name2 _ _ (Mixer._levels m)).
Qed.

End MixerSequences.

Section ExactMixerSequences.

(** A lead and a bass, in both orders. *)
Lemma add_track_twice_and_swap_witness :
  let sine := Osc.Oscillator.mk (F:=R) "Sine" Osc._generate_sin in
  let square := Osc.Oscillator.mk (F:=R) "Square" Osc._generate_sqr in
  mixer_run [CallAddTrack sine [("A4", "1/4")] "lead";
             CallAddTrack square [] "bass"] Mixer.__init__
  = mixer_run [CallAddTrack square [] "bass";
               CallAddTrack sine [("A4", "1/4")] "lead"] Mixer.__init__.
Proof.
  intros sine square.
  by apply (proj2 (@add_track_twice_and_swap R Num.exact Mixer.__init__
                     sine square [("A4", "1/4")] [] "lead" "bass")).
Defined.

End ExactMixerSequences.

(* ===================================================================== *)
(** ** Durations that are not finite *)
(* ===================================================================== *)

Module Binary64Edges.
Import Floats.

Lemma Prim2SF_nan (d : float) : is_nan d = true -> Prim2SF d = S754_nan.
Proof. intros Hd. unfold Prim2SF. by rewrite Hd. Qed.

Lemma is_infinity_spec (d : float) :
  is_infinity d = SFeqb (SFabs (Prim2SF d)) (S754_infinity false).
Proof.
  unfold is_infinity. rewrite FloatAxioms.eqb_spec, abs_spec.
  f_equal.
Qed.

Lemma Prim2SF_infinity (d : float) :
  is_infinity d = true -> Prim2SF d = S754_infinity (get_sign d).
Proof.
  intros Hd. pose proof (is_infinity_spec d) as Hspec. rewrite Hd in Hspec.
  destruct (is_nan d) eqn:Hn.
  { by rewrite (Prim2SF_nan d Hn) in Hspec. }
  destruct (is_zero d) eqn:Hz.
  { assert (Prim2SF d = S754_zero (get_sign d)) as Hzero
      by (unfold Prim2SF; by rewrite Hn, Hz).
    by rewrite Hzero in Hspec. }
  unfold Prim2SF. by rewrite Hn, Hz, Hd.
Qed.

(** The default rate as a double. *)
Lemma rate_44100 :
  Prim2SF (Num.B64.of_int 44100) = S754_finite false 6061057848115200 (-37).
Proof. vm_compute. reflexivity. Qed.

(** X15.  On doubles at the default rate: a duration that is NaN makes
    [Time.get_array] raise [ValueError], and a duration that is an infinity
    of either sign makes it raise [OverflowError], both from [int()];
    the globals are left as they were. *)
Theorem get_array_binary64_not_finite (duration start : float) :
  (is_nan duration = true ->
     Time.get_array (Time.mk duration start) binary64_globals
     = (Py.Raise (Py.ValueError "cannot convert float NaN to integer"),
        binary64_globals))
  /\ (is_infinity duration = true ->
      Time.get_array (Time.mk duration start) binary64_globals
      = (Py.Raise
           (Py.OverflowError "cannot convert float infinity to integer"),
         binary64_globals)).
Proof.
  split; intros Hd; rewrite get_array_unfold; simpl; unfold Num.B64.to_int;
    rewrite mul_spec, rate_44100.
  - by rewrite (Prim2SF_nan _ Hd).
  - by rewrite (Prim2SF_infinity _ Hd).
Qed.

(** NaN and minus infinity. *)
Lemma get_array_binary64_not_finite_witness :
  Time.get_array (Time.mk nan 0%float) binary64_globals
  = (Py.Raise (Py.ValueError "cannot convert float NaN to integer"),
     binary64_globals)
  /\ Time.get_array (Time.mk neg_infinity 0%float) binary64_globals
     = (Py.Raise (Py.OverflowError "cannot convert float infinity to integer"),
        binary64_globals).
Proof.
  split.
  - apply (proj1 (get_array_binary64_not_finite nan 0%float)). reflexivity.
  - apply (proj2 (get_array_binary64_not_finite neg_infinity 0%float)).
    reflexivity.
Defined.

End Binary64Edges.

(* ===================================================================== *)
(** ** String forms *)
(* ===================================================================== *)

Section Printing.
Context {F : Type}.

Lemma list_ascii_of_string_app (s1 s2 : string) :
  Strings.String.list_ascii_of_string (s1 +:+ s2)
  = Strings.String.list_ascii_of_string s1
    ++ Strings.String.list_ascii_of_string s2.
Proof. induction s1 as [|a s1 IH]; [done|]. simpl. by rewrite <- IH. Qed.

Lemma string_app_inv_tail (s1 s2 tail : string) :
  s1 +:+ tail = s2 +:+ tail -> s1 = s2.
Proof.
  intros Heq. apply (f_equal Strings.String.list_ascii_of_string) in Heq.
  rewrite !list_ascii_of_string_app in Heq.
  apply app_inv_tail in Heq.
  apply (f_equal Strings.String.string_of_list_ascii) in Heq.
  by rewrite !Strings.String.string_of_list_ascii_of_string in Heq.
Qed.

(** X16.  Two oscillators have the same string form exactly when they have
    the same wave name, whatever their generators; [__repr__] gives the
    string form. *)
Theorem oscillator_str_names_wave (o1 o2 : Osc.Oscillator.t F) :
  (Osc.Oscillator.__str__ o1 = Osc.Oscillator.__str__ o2
   <-> Osc.Oscillator._wave o1 = Osc.Oscillator._wave o2)
  /\ Osc.Oscillator.__repr__ o1 = Osc.Oscillator.__str__ o1.
Proof.
  split; [|done]. unfold Osc.Oscillator.__str__. split.
  - intros Heq. apply (inj (String.app _)) in Heq.
    by apply string_app_inv_tail in Heq.
  - by intros ->.
Qed.

End Printing.
